(** * EyeBlinkAnalysis: the notebook -> markdown -> PDF conversion script

    A shallow embedding of [convert_jupyter_md_pandoc.py].  The script
    derives two paths from a constant notebook path, runs
    [jupyter nbconvert] and then [pandoc] as child processes, and reports
    the outcome of each.

    Layout:
    - [PyStr]:     the [str] methods the script calls ([rfind], slices,
                   [rstrip], [split], [startswith], [endswith]);
    - [PosixPath]: [os.path.basename], [os.path.dirname], [os.path.join];
    - [Script]:    the module-level constants and the two argument vectors,
                   as functions of the notebook path and metadata table;
    - [Run]:       the two [try]/[except] blocks over a monad of
                   exceptions, an event trace and an arbitrary environment
                   that decides how child processes end. *)

From Stdlib Require Import ZArith List String Ascii Bool Lia.
Import ListNotations.

Local Open Scope string_scope.
Local Open Scope Z_scope.

(** ** Python [str] operations *)

Module PyStr.

(** [len(s)] as an integer. *)
Definition len (s : string) : Z := Z.of_nat (String.length s).

(** [c in s] for a one-character [c]. *)
Fixpoint contains (c : ascii) (s : string) : bool :=
  match s with
  | EmptyString => false
  | String a r => (a =? c)%char || contains c r
  end.

(** [s.rfind(c)] for a one-character [c]: the highest index at which
    [c] occurs, [-1] when it does not occur. *)
Fixpoint rfind (c : ascii) (s : string) : Z :=
  match s with
  | EmptyString => -1
  | String a r =>
      let i := rfind c r in
      if 0 <=? i then i + 1
      else if (a =? c)%char then 0 else -1
  end.

Fixpoint take (n : nat) (s : string) : string :=
  match n, s with
  | O, _ => EmptyString
  | S _, EmptyString => EmptyString
  | S n', String a r => String a (take n' r)
  end.

Fixpoint drop (n : nat) (s : string) : string :=
  match n, s with
  | O, _ => s
  | S _, EmptyString => EmptyString
  | S n', String _ r => drop n' r
  end.

(** A slice bound as Python normalises it: a negative bound counts from
    the end, and the result is clipped to [0 .. len(s)]. *)
Definition bound (i : Z) (s : string) : nat :=
  Z.to_nat (Z.min (len s) (if i <? 0 then Z.max 0 (i + len s) else i)).

(** [s[:i]] *)
Definition slice_to (i : Z) (s : string) : string := take (bound i s) s.

(** [s[i:]] *)
Definition slice_from (i : Z) (s : string) : string := drop (bound i s) s.

(** [c * n] *)
Fixpoint replicate (c : ascii) (n : nat) : string :=
  match n with
  | O => EmptyString
  | S n' => String c (replicate c n')
  end.

(** [s.rstrip(c)] for a one-character [c]. *)
Fixpoint rstrip (c : ascii) (s : string) : string :=
  match s with
  | EmptyString => EmptyString
  | String a r =>
      match rstrip c r with
      | EmptyString => if (a =? c)%char then EmptyString else String a EmptyString
      | r' => String a r'
      end
  end.

(** [s.startswith(c)] and [s.endswith(c)] for a one-character [c]. *)
Definition startswith (c : ascii) (s : string) : bool :=
  match s with
  | EmptyString => false
  | String a _ => (a =? c)%char
  end.

Fixpoint endswith (c : ascii) (s : string) : bool :=
  match s with
  | EmptyString => false
  | String a EmptyString => (a =? c)%char
  | String _ r => endswith c r
  end.

(** [s.split(c)] for a one-character separator [c]: the pieces between
    the occurrences of [c], in order; never the empty list. *)
Fixpoint split (c : ascii) (s : string) : list string :=
  match s with
  | EmptyString => [EmptyString]
  | String a r =>
      if (a =? c)%char then EmptyString :: split c r
      else match split c r with
           | x :: xs => String a x :: xs
           | [] => [String a EmptyString]
           end
  end.

(** [l[0]]: Python raises [IndexError] on the empty list. *)
Definition item0 (l : list string) : option string :=
  match l with
  | [] => None
  | x :: _ => Some x
  end.

(** [s == c * len(s)] *)
Definition all_c (c : ascii) (s : string) : bool :=
  (s =? replicate c (String.length s))%string.

(** Directly after the last [c], or at the start: the place
    [s.rfind(c) + 1] points to. *)
Definition cut_point (c : ascii) (h : string) : Prop :=
  h = EmptyString \/ endswith c h = true.

End PyStr.

(** ** [posixpath] *)

Module PosixPath.
Import PyStr.

Definition sep : ascii := "/"%char.

(** [i = p.rfind(sep) + 1; return p[i:]] *)
Definition basename (p : string) : string :=
  let i := rfind sep p + 1 in
  slice_from i p.

(** [i = p.rfind(sep) + 1; head = p[:i];
     if head and head != sep*len(head): head = head.rstrip(sep);
     return head] *)
Definition dirname (p : string) : string :=
  let i := rfind sep p + 1 in
  let head := slice_to i p in
  if negb (head =? EmptyString)%string
     && negb (head =? replicate sep (String.length head))%string
  then rstrip sep head
  else head.

(** [join(a, b)], the two-argument case the script uses. *)
Definition join (a b : string) : string :=
  if startswith sep b then b
  else if (a =? EmptyString)%string || endswith sep a then a ++ b
  else a ++ String sep b.

(** A directory as [dirname] returns it: it ends in a separator only
    when it consists of separators. *)
Definition normal_dir (d : string) : Prop :=
  endswith sep d = true -> all_c sep d = true.

End PosixPath.

(** ** Module-level constants of the script *)

Module Script.
Import PyStr PosixPath.

Definition notebook_path : string :=
  "/Users/karthik/Desktop/Autoyos/data_analyst_assignment/autoyos_eye_blink_analysis_karthik_dani.ipynb".

(** [os.path.basename(nb).split(".")[0]]; [split] never returns the
    empty list (lemma [split_nonempty] below), so the index never fails
    and the fall-back branch is dead. *)
Definition base_filename_of (nb : string) : string :=
  match item0 (split "."%char (basename nb)) with
  | Some b => b
  | None => EmptyString
  end.

Definition markdown_path_of (nb : string) : string :=
  join (dirname nb) (base_filename_of nb ++ ".md").

Definition pdf_output_path_of (nb : string) : string :=
  join (dirname nb) (base_filename_of nb ++ ".pdf").

Definition base_filename : string := base_filename_of notebook_path.
Definition markdown_path : string := markdown_path_of notebook_path.
Definition pdf_output_path : string := pdf_output_path_of notebook_path.

(** The [metadata] dict literal.  A Python dict iterates in insertion
    order, so it is kept as an association list. *)
Definition metadata : list (string * string) :=
  [ ("title", "Autoyos: Eye Blink Data Analysis");
    ("author", "Karthik Dani: 1BM22MD022");
    ("date", "2024-06-26");
    ("abstract", "This study investigates blinking behavior using longitudinal data analysis techniques. By analyzing blink durations, interblink intervals, and blink rates over multiple months, we uncover nuanced patterns and variations. Statistical analysis and visualizations reveal trends in blinking habits, shedding light on potential factors influencing these behaviors. This exploration offers valuable insights into the dynamics of blinking patterns.");
    ("subtitle", "Statistically Understanding Blinking Behavior across April, May and June");
    ("keywords", "Data analysis");
    ("thanks", "*");
    ("email", "karthikdani14@gmail.com");
    ("institute", "BMS College of Engineering, Bangalore") ].

(** The double-quote character (code 34). *)
Definition dquote : ascii := "034"%char.

(** The argument list of the first [subprocess.run]. *)
Definition nbconvert_command_of (nb : string) : list string :=
  [ "jupyter"; "nbconvert"; "--to"; "markdown";
    "--TagRemovePreprocessor.enabled=True";
    "--TagRemovePreprocessor.remove_cell_tags=" ++ String dquote "exclude-output";
    nb ].

(** [f"--metadata={key}={value}"] *)
Definition metadata_arg (key value : string) : string :=
  "--metadata=" ++ key ++ "=" ++ value.

(** [pandoc_command = ["pandoc", markdown_path, "-o", pdf_output_path]]
    followed by the loop
    [for key, value in metadata.items(): pandoc_command.append(...)]. *)
Definition pandoc_command_of (nb : string) (md : list (string * string))
  : list string :=
  fold_left (fun cmd kv => (cmd ++ [metadata_arg (fst kv) (snd kv)])%list) md
    [ "pandoc"; markdown_path_of nb; "-o"; pdf_output_path_of nb ].

Definition nbconvert_command : list string := nbconvert_command_of notebook_path.
Definition pandoc_command : list string := pandoc_command_of notebook_path metadata.

(** [arg] is the metadata option for [key]. *)
Definition is_metadata_for (key arg : string) : bool :=
  prefix ("--metadata=" ++ key ++ "=") arg.

End Script.

(** ** The specification's reading of "base filename" *)

Module SpecWords.
Import PyStr.

(** Number of occurrences of [c] in [s]. *)
Fixpoint count (c : ascii) (s : string) : nat :=
  match s with
  | EmptyString => O
  | String a r => ((if (a =? c)%char then 1 else 0) + count c r)%nat
  end.

(** The specification's words: "the filename with its extension
    stripped (the filename minus the final extension)".  The extension
    is read as [os.path.splitext] reads it: the text from the last dot
    on, unless only dots stand before that dot (dots that lead the name
    do not start an extension); a name without an extension is kept
    whole. *)
Definition strip_final_extension (f : string) : string :=
  let d := rfind "."%char f in
  if (0 <=? d) && negb (all_c "."%char (slice_to d f)) then slice_to d f else f.

End SpecWords.

(** ** Running the script *)

Module Run.
Import PyStr PosixPath Script.

(** The exceptions that can reach the script.  [subprocess.run] raises
    [CalledProcessError] when [check=True] and the child's return code
    is not zero, and an [OSError] (such as [FileNotFoundError]) when the
    child cannot be started at all; [exit(n)] raises [SystemExit]. *)
Inductive exn : Type :=
| CalledProcessError (cmd : list string) (returncode : Z)
| OSError (what : string)
| SystemExit (code : Z).

(** What the environment answers to a request to run a child. *)
Inductive child : Type :=
| Finished (returncode : Z)
| NotStarted (what : string).

(** What an observer of the process sees, in order. *)
Inductive event : Type :=
| Start (args : list string)
| Exit (returncode : Z)
| NoStart (args : list string)
| Print (line : string).

Inductive result (A : Type) : Type :=
| Val (a : A)
| Raise (e : exn).
Arguments Val {A} a.
Arguments Raise {A} e.

Section Environment.

(** The environment: a state of the outside world, how it reacts to
    running a command, and how [CalledProcessError.__str__] renders
    an error ([{e}] in the two f-strings). *)
Variable World : Type.
Variable spawn : list string -> World -> child * World.
Variable str : exn -> string.

Record state : Type := mkState { world : World; trace : list event }.

Definition M (A : Type) : Type := state -> result A * state.

Definition ret {A} (a : A) : M A := fun s => (Val a, s).

Definition bind {A B} (m : M A) (k : A -> M B) : M B :=
  fun s =>
    match m s with
    | (Val a, s') => k a s'
    | (Raise e, s') => (Raise e, s')
    end.

Definition raise {A} (e : exn) : M A := fun s => (Raise e, s).

Definition emit (ev : event) : M unit :=
  fun s => (Val tt, mkState (world s) (trace s ++ [ev])).

(** [try: body  except <class> as e: handler]: [handler] answers
    [None] on an exception the clause does not name, which then
    propagates. *)
Definition try_except {A} (body : M A) (handler : exn -> option (M A)) : M A :=
  fun s =>
    match body s with
    | (Val a, s') => (Val a, s')
    | (Raise e, s') =>
        match handler e with
        | Some h => h s'
        | None => (Raise e, s')
        end
    end.

Definition except_CalledProcessError {A} (h : exn -> M A) : exn -> option (M A) :=
  fun e =>
    match e with
    | CalledProcessError _ _ => Some (h e)
    | _ => None
    end.

Notation "x <- m ;; k" := (bind m (fun x => k))
  (at level 61, m at next level, right associativity).
Notation "m ;; k" := (bind m (fun _ => k))
  (at level 61, right associativity).

(** [subprocess.run(args, check=check)]: start the child, wait for it
    to end, and raise when [check and retcode]. *)
Definition subprocess_run (args : list string) (check : bool) : M Z :=
  fun s =>
    match spawn args (world s) with
    | (NotStarted what, w') =>
        (Raise (OSError what), mkState w' (trace s ++ [NoStart args]))
    | (Finished rc, w') =>
        let s' := mkState w' (trace s ++ [Start args; Exit rc]) in
        if check && negb (rc =? 0) then (Raise (CalledProcessError args rc), s')
        else (Val rc, s')
    end.

Definition print (line : string) : M unit := emit (Print line).

(** [exit(code)] *)
Definition exit {A} (code : Z) : M A := raise (SystemExit code).

Section Program.

Variable nb : string.
Variable md : list (string * string).

Local Abbreviation nbc := (nbconvert_command_of nb).
Local Abbreviation pdc := (pandoc_command_of nb md).
Local Abbreviation ok1 :=
  ("Converted notebook to Markdown: " ++ markdown_path_of nb).
Local Abbreviation ok2 :=
  ("Successfully converted Markdown to PDF: " ++ pdf_output_path_of nb).
Local Abbreviation err1 rc :=
  ("Error during Markdown conversion: " ++ str (CalledProcessError nbc rc)).
Local Abbreviation err2 rc :=
  ("Error during PDF conversion: " ++ str (CalledProcessError pdc rc)).

Definition stage1 : M unit :=
  try_except
    (subprocess_run (nbconvert_command_of nb) true ;;
     print ("Converted notebook to Markdown: " ++ markdown_path_of nb))
    (except_CalledProcessError (fun e =>
       print ("Error during Markdown conversion: " ++ str e) ;;
       exit 1)).

Definition stage2 : M unit :=
  try_except
    (subprocess_run (pandoc_command_of nb md) true ;;
     print ("Successfully converted Markdown to PDF: " ++ pdf_output_path_of nb))
    (except_CalledProcessError (fun e =>
       print ("Error during PDF conversion: " ++ str e))).

Definition script : M unit := stage1 ;; stage2.

(** The five ways a run of [script] can go, with the final world
    and the trace of each. *)
Inductive outcome : result unit * state -> Prop :=
| Stage1NotStarted what w1 :
    outcome (Raise (OSError what), mkState w1 [NoStart nbc])
| Stage1Failed rc w1 :
    rc <> 0 ->
    outcome (Raise (SystemExit 1),
             mkState w1 [Start nbc; Exit rc; Print (err1 rc)])
| Stage2NotStarted what w2 :
    outcome (Raise (OSError what),
             mkState w2 [Start nbc; Exit 0; Print ok1; NoStart pdc])
| Stage2Failed rc w2 :
    rc <> 0 ->
    outcome (Val tt,
             mkState w2 [Start nbc; Exit 0; Print ok1; Start pdc; Exit rc;
                         Print (err2 rc)])
| BothSucceed w2 :
    outcome (Val tt,
             mkState w2 [Start nbc; Exit 0; Print ok1; Start pdc; Exit 0;
                         Print ok2]).

End Program.

(** The script as it stands, on its constant path and table. *)
Definition main : M unit := script notebook_path metadata.

Definition run (m : M unit) (w : World) : result unit * state :=
  m (mkState w []).

End Environment.

Arguments mkState {World} world trace.
Arguments world {World} s.
Arguments trace {World} s.
Arguments run {World} m w.

(** The exit status of the interpreter: 0 when the script runs off its
    end, the code of [SystemExit], 1 after any other uncaught
    exception. *)
Definition exit_status (r : result unit) : Z :=
  match r with
  | Val _ => 0
  | Raise (SystemExit code) => code mod 256
  | Raise _ => 1
  end.

(** The commands the script asked to run, in order. *)
Fixpoint invocations (tr : list event) : list (list string) :=
  match tr with
  | [] => []
  | Start args :: tr' => args :: invocations tr'
  | NoStart args :: tr' => args :: invocations tr'
  | _ :: tr' => invocations tr'
  end.

(** The lines the script printed, in order. *)
Fixpoint printed (tr : list event) : list string :=
  match tr with
  | [] => []
  | Print line :: tr' => line :: printed tr'
  | _ :: tr' => printed tr'
  end.

(** Children started and not yet ended after the events [tr]. *)
Fixpoint live (tr : list event) : Z :=
  match tr with
  | [] => 0
  | Start _ :: tr' => live tr' + 1
  | Exit _ :: tr' => live tr' - 1
  | _ :: tr' => live tr'
  end.

(** Children that were started, over the events [tr]. *)
Fixpoint started (tr : list event) : nat :=
  match tr with
  | [] => O
  | Start _ :: tr' => S (started tr')
  | _ :: tr' => started tr'
  end.

(** Two environments used to run the script on concrete inputs: one
    whose children all end with the same return code, and one that
    plays a list of answers in order and then fails to start anything. *)
Definition always (rc : Z) (args : list string) (w : unit) : child * unit :=
  (Finished rc, w).

Definition scripted (args : list string) (w : list child) : child * list child :=
  match w with
  | [] => (NotStarted "no such file", [])
  | c :: w' => (c, w')
  end.

Definition no_str (e : exn) : string := EmptyString.

(** [line] is one of the script's two error reports. *)
Definition is_error_report (line : string) : bool := prefix "Error during" line.

End Run.

Import PyStr PosixPath Script SpecWords Run.

(** * Facts about the string operations *)

Section StrFacts.

Variable c : ascii.

Local Abbreviation cut_point := (PyStr.cut_point c).
Local Abbreviation all_c := (PyStr.all_c c).

Lemma len_cons a s : len (String a s) = len s + 1.
Proof. unfold len. cbn [String.length]. lia. Qed.

Lemma len_nonneg s : 0 <= len s.
Proof. unfold len. lia. Qed.

Lemma len_app h t : len (h ++ t) = len h + len t.
Proof.
  induction h as [|a h IH]; cbn [append].
  - unfold len at 2. cbn. lia.
  - rewrite !len_cons, IH. lia.
Qed.

Lemma app_empty_r s : s ++ EmptyString = s.
Proof. induction s as [|a s IH]; cbn; [reflexivity | now rewrite IH]. Qed.

Lemma app_assoc' (x y z : string) : (x ++ y) ++ z = x ++ (y ++ z).
Proof. induction x as [|a x IH]; cbn; [reflexivity | now rewrite IH]. Qed.

Lemma contains_app h t : contains c (h ++ t) = contains c h || contains c t.
Proof.
  induction h as [|a h IH]; cbn; [reflexivity |].
  rewrite IH. now rewrite orb_assoc.
Qed.

Lemma rfind_lower s : -1 <= rfind c s.
Proof.
  induction s as [|a s IH]; cbn [rfind]; [lia |].
  destruct (Z.leb_spec 0 (rfind c s)); [lia |].
  destruct (a =? c)%char; lia.
Qed.

Lemma rfind_absent s : contains c s = false -> rfind c s = -1.
Proof.
  induction s as [|a s IH]; cbn [rfind contains]; [reflexivity |].
  intros H. apply orb_false_iff in H as [Ha Hs].
  rewrite (IH Hs), Ha. reflexivity.
Qed.

Lemma rfind_app_absent h t :
  contains c t = false -> rfind c (h ++ t) = rfind c h.
Proof.
  intros Ht. induction h as [|a h IH]; cbn [append rfind].
  - now apply rfind_absent.
  - now rewrite IH.
Qed.

Lemma endswith_cons a s :
  s <> EmptyString -> endswith c (String a s) = endswith c s.
Proof. destruct s; [congruence | reflexivity]. Qed.

Lemma rfind_cons_found a s :
  0 <= rfind c s -> rfind c (String a s) = rfind c s + 1.
Proof.
  intros H. cbn [rfind]. destruct (Z.leb_spec 0 (rfind c s)); [reflexivity | lia].
Qed.

Lemma rfind_endswith h : endswith c h = true -> rfind c h + 1 = len h.
Proof.
  induction h as [|a h IH]; [discriminate |].
  destruct h as [|b h'].
  - cbn. intros ->. reflexivity.
  - intros H. rewrite endswith_cons in H by discriminate.
    specialize (IH H).
    pose proof (len_nonneg h') as Hl.
    rewrite (len_cons a). rewrite len_cons in IH |- *.
    rewrite rfind_cons_found; lia.
Qed.

Lemma rfind_cut h t :
  cut_point h -> contains c t = false -> rfind c (h ++ t) + 1 = len h.
Proof.
  intros [-> | Hh] Ht.
  - cbn [append]. now rewrite rfind_absent.
  - rewrite rfind_app_absent by assumption. now apply rfind_endswith.
Qed.

Lemma take_app h t : take (String.length h) (h ++ t) = h.
Proof. induction h as [|a h IH]; cbn; [now destruct t | now rewrite IH]. Qed.

Lemma drop_app h t : drop (String.length h) (h ++ t) = t.
Proof. induction h as [|a h IH]; cbn; [reflexivity | exact IH]. Qed.

Lemma bound_app h t : bound (len h) (h ++ t) = String.length h.
Proof.
  unfold bound. rewrite len_app.
  pose proof (len_nonneg h). pose proof (len_nonneg t).
  destruct (Z.ltb_spec (len h) 0); [lia |].
  rewrite Z.min_r by lia. unfold len. now rewrite Nat2Z.id.
Qed.

Lemma slice_to_app h t : slice_to (len h) (h ++ t) = h.
Proof. unfold slice_to. rewrite bound_app. apply take_app. Qed.

Lemma slice_from_app h t : slice_from (len h) (h ++ t) = t.
Proof. unfold slice_from. rewrite bound_app. apply drop_app. Qed.

(** Every string splits at its last [c]. *)
Lemma last_cut s :
  exists h t, s = h ++ t /\ cut_point h /\ contains c t = false.
Proof.
  induction s as [|a s (h & t & -> & Hh & Ht)].
  - exists EmptyString, EmptyString. repeat split. now left.
  - destruct Hh as [-> | Hh].
    + cbn [append]. destruct (a =? c)%char eqn:Ha.
      * exists (String a EmptyString), t. repeat split; [| assumption].
        right. exact Ha.
      * exists EmptyString, (String a t). repeat split; [now left |].
        cbn [contains]. now rewrite Ha, Ht.
    + exists (String a h), t. repeat split; [| assumption].
      right. rewrite endswith_cons; [assumption |].
      intros ->. discriminate.
Qed.

Lemma endswith_snoc d : endswith c (d ++ String c EmptyString) = true.
Proof.
  induction d as [|a d IH]; cbn [append].
  - cbn. apply Ascii.eqb_refl.
  - rewrite endswith_cons; [exact IH |]. now destruct d.
Qed.

Lemma startswith_absent b : contains c b = false -> startswith c b = false.
Proof.
  destruct b as [|a b]; cbn; [reflexivity |].
  intros H. now apply orb_false_iff in H.
Qed.

Lemma all_c_cons a s : all_c (String a s) = (a =? c)%char && all_c s.
Proof. reflexivity. Qed.

Lemma all_c_cut s : all_c s = true -> cut_point s.
Proof.
  induction s as [|a s IH]; [now left |].
  rewrite all_c_cons. intros H. apply andb_true_iff in H as [Ha Hs].
  right. destruct (IH Hs) as [-> | He].
  - exact Ha.
  - rewrite endswith_cons; [exact He |]. intros ->. discriminate.
Qed.

Lemma all_c_snoc d : all_c (d ++ String c EmptyString) = all_c d.
Proof.
  induction d as [|a d IH]; cbn [append].
  - rewrite all_c_cons, Ascii.eqb_refl. reflexivity.
  - now rewrite !all_c_cons, IH.
Qed.

Lemma rstrip_no_end s : endswith c s = false -> rstrip c s = s.
Proof.
  induction s as [|a s IH]; [reflexivity |].
  destruct s as [|b s'].
  - cbn. now intros ->.
  - intros H. rewrite endswith_cons in H by discriminate.
    cbn [rstrip] in IH |- *. now rewrite (IH H).
Qed.

Lemma rstrip_snoc d : rstrip c (d ++ String c EmptyString) = rstrip c d.
Proof.
  induction d as [|a d IH]; cbn [append rstrip].
  - now rewrite Ascii.eqb_refl.
  - now rewrite IH.
Qed.

Lemma rstrip_not_endswith s : endswith c (rstrip c s) = false.
Proof.
  induction s as [|a s IH]; [reflexivity |].
  cbn [rstrip]. destruct (rstrip c s) as [|b r].
  - destruct (a =? c)%char eqn:Ha; [reflexivity | exact Ha].
  - rewrite endswith_cons by discriminate. exact IH.
Qed.

Lemma rfind_at h t :
  contains c t = false -> rfind c (h ++ String c t) = len h.
Proof.
  intros Ht.
  assert (H : rfind c ((h ++ String c EmptyString) ++ t) + 1 = len (h ++ String c EmptyString)).
  { apply rfind_cut; [right; apply endswith_snoc | assumption]. }
  rewrite app_assoc', len_app in H. cbn [append] in H.
  change (len (String c EmptyString)) with 1 in H. lia.
Qed.

Lemma count_app h t : count c (h ++ t) = (count c h + count c t)%nat.
Proof.
  induction h as [|a h IH]; cbn [append count]; [reflexivity |].
  rewrite IH. lia.
Qed.

Lemma count_zero s : count c s = O -> contains c s = false.
Proof.
  induction s as [|a s IH]; cbn [count contains]; [reflexivity |].
  destruct (a =? c)%char; cbn [orb]; [discriminate |].
  exact IH.
Qed.

Lemma count_absent s : contains c s = false -> count c s = O.
Proof.
  induction s as [|a s IH]; cbn [count contains]; [reflexivity |].
  intros H. apply orb_false_iff in H as [-> Hs]. now rewrite IH.
Qed.

Lemma rfind_present s : contains c s = true -> 0 <= rfind c s.
Proof.
  induction s as [|a s IH]; cbn [contains rfind]; [discriminate |].
  intros H. pose proof (rfind_lower s).
  destruct (Z.leb_spec 0 (rfind c s)); [lia |].
  destruct (a =? c)%char; cbn [orb] in H; [lia |].
  specialize (IH H). lia.
Qed.

Lemma rfind_app_present h t :
  contains c t = true -> rfind c (h ++ t) = len h + rfind c t.
Proof.
  intros Ht. pose proof (rfind_present t Ht) as H0.
  induction h as [|a h IH]; cbn [append].
  - change (len EmptyString) with 0. lia.
  - pose proof (len_nonneg h).
    rewrite rfind_cons_found, IH, len_cons; lia.
Qed.

Lemma rfind_upper s : rfind c s < len s.
Proof.
  induction s as [|a s IH]; [cbn; lia |].
  rewrite len_cons. pose proof (len_nonneg s). cbn [rfind].
  destruct (Z.leb_spec 0 (rfind c s)); [lia |].
  destruct (a =? c)%char; lia.
Qed.

Lemma length_take n s :
  (n <= String.length s)%nat -> String.length (take n s) = n.
Proof.
  revert s. induction n as [|n IH]; intros s H; [reflexivity |].
  destruct s as [|a s]; cbn in H |- *; [lia |].
  rewrite IH; lia.
Qed.

Lemma len_slice_to i s : 0 <= i <= len s -> len (slice_to i s) = i.
Proof.
  intros H. unfold slice_to, bound, len in *.
  destruct (Z.ltb_spec i 0); [lia |].
  rewrite Z.min_r by lia. rewrite length_take; lia.
Qed.

Lemma split_nonempty s : split c s <> [].
Proof.
  destruct s as [|a s]; cbn [split]; [discriminate |].
  destruct (a =? c)%char; [discriminate |].
  destruct (split c s); discriminate.
Qed.

(** The first piece of [split] is what stands before the first [c]. *)
Lemma split_first s :
  exists x xs, split c s = x :: xs /\ contains c x = false /\
               (s = x \/ exists rest, s = x ++ String c rest).
Proof.
  induction s as [|a s (x & xs & Hs & Hx & Hcase)].
  - exists EmptyString, []. repeat split. now left.
  - cbn [split]. destruct (a =? c)%char eqn:Ha.
    + apply Ascii.eqb_eq in Ha. subst a.
      exists EmptyString, (split c s). repeat split. right. now exists s.
    + rewrite Hs. exists (String a x), xs. repeat split.
      * cbn [contains]. now rewrite Ha, Hx.
      * destruct Hcase as [-> | (rest & ->)]; [now left |].
        right. now exists rest.
Qed.

End StrFacts.

(** * Facts about the path operations *)

Section PathFacts.

Lemma basename_cut h t :
  cut_point sep h -> contains sep t = false -> basename (h ++ t) = t.
Proof.
  intros Hh Ht. unfold basename. cbv zeta.
  rewrite (rfind_cut sep h t Hh Ht). apply slice_from_app.
Qed.

Lemma dirname_cut h t :
  cut_point sep h -> contains sep t = false ->
  dirname (h ++ t) =
  if negb (h =? EmptyString)%string && negb (all_c sep h) then rstrip sep h else h.
Proof.
  intros Hh Ht. unfold dirname. cbv zeta.
  rewrite (rfind_cut sep h t Hh Ht), slice_to_app. reflexivity.
Qed.

Lemma dirname_normal p : normal_dir (dirname p).
Proof.
  destruct (last_cut sep p) as (h & t & -> & Hh & Ht).
  rewrite (dirname_cut h t Hh Ht). unfold normal_dir.
  destruct (h =? EmptyString)%string eqn:He; cbn [negb andb].
  - apply String.eqb_eq in He. subst h. discriminate.
  - destruct (all_c sep h) eqn:Ha; cbn [negb].
    + intros _. exact Ha.
    + rewrite rstrip_not_endswith. discriminate.
Qed.

(** [join d b] puts a cut point before [b] when [b] has no separator. *)
Lemma join_cut d b :
  contains sep b = false ->
  exists h, join d b = h ++ b /\ cut_point sep h /\
            (h = d \/ (h = d ++ String sep EmptyString /\ d <> EmptyString /\ endswith sep d = false)).
Proof.
  intros Hb. unfold join. rewrite (startswith_absent sep b Hb).
  destruct (d =? EmptyString)%string eqn:He; cbn [orb].
  - apply String.eqb_eq in He. subst d. exists EmptyString. repeat split; now left.
  - apply String.eqb_neq in He.
    destruct (endswith sep d) eqn:Hd.
    + exists d. repeat split; [now right | now left].
    + exists (d ++ String sep EmptyString). rewrite app_assoc'. repeat split.
      * right. apply endswith_snoc.
      * right. repeat split; assumption.
Qed.

Lemma basename_join d b : contains sep b = false -> basename (join d b) = b.
Proof.
  intros Hb. destruct (join_cut d b Hb) as (h & -> & Hh & _).
  now apply basename_cut.
Qed.

Lemma dirname_join d b :
  normal_dir d -> contains sep b = false -> dirname (join d b) = d.
Proof.
  intros Hd Hb. destruct (join_cut d b Hb) as (h & -> & Hh & Hcase).
  rewrite (dirname_cut h b Hh Hb).
  destruct Hcase as [-> | (-> & Hne & He)].
  - destruct Hh as [-> | Hh]; [reflexivity |].
    rewrite (Hd Hh). now rewrite andb_false_r.
  - rewrite all_c_snoc, rstrip_snoc, (rstrip_no_end sep d He).
    destruct (all_c sep d) eqn:Ha.
    + destruct (all_c_cut sep d Ha) as [-> | He']; congruence.
    + destruct d; [congruence | reflexivity].
Qed.

Lemma basename_no_sep p : contains sep (basename p) = false.
Proof.
  destruct (last_cut sep p) as (h & t & -> & Hh & Ht).
  now rewrite basename_cut.
Qed.

(** The base filename is what stands before the first dot of the
    notebook's filename. *)
Lemma base_filename_first_dot nb :
  contains "."%char (base_filename_of nb) = false /\
  (basename nb = base_filename_of nb \/
   exists rest, basename nb = base_filename_of nb ++ String "."%char rest).
Proof.
  unfold base_filename_of.
  destruct (split_first "."%char (basename nb)) as (x & xs & -> & Hx & Hcase).
  cbn [item0]. split; assumption.
Qed.

Lemma base_filename_no_sep nb : contains sep (base_filename_of nb) = false.
Proof.
  pose proof (basename_no_sep nb) as Hb.
  destruct (base_filename_first_dot nb) as [_ [He | (rest & He)]];
    rewrite He in Hb; [exact Hb |].
  rewrite contains_app in Hb. now apply orb_false_iff in Hb.
Qed.

Lemma derived_name nb ext :
  contains sep ext = false ->
  dirname (join (dirname nb) (base_filename_of nb ++ ext)) = dirname nb /\
  basename (join (dirname nb) (base_filename_of nb ++ ext)) = base_filename_of nb ++ ext.
Proof.
  intros He.
  assert (Hb : contains sep (base_filename_of nb ++ ext) = false).
  { now rewrite contains_app, base_filename_no_sep, He. }
  split.
  - apply dirname_join; [apply dirname_normal | exact Hb].
  - apply basename_join. exact Hb.
Qed.

End PathFacts.

(** * The derived paths *)

(** C4: the markdown and PDF paths lie in the notebook's directory and
    are named [<base>.md] and [<base>.pdf]; for [/x/y/notebook.ipynb]
    they are [/x/y/notebook.md] and [/x/y/notebook.pdf]. *)
Theorem derived_paths_in_notebook_directory :
  (forall nb,
     dirname (markdown_path_of nb) = dirname nb /\
     basename (markdown_path_of nb) = base_filename_of nb ++ ".md" /\
     dirname (pdf_output_path_of nb) = dirname nb /\
     basename (pdf_output_path_of nb) = base_filename_of nb ++ ".pdf") /\
  markdown_path_of "/x/y/notebook.ipynb" = "/x/y/notebook.md" /\
  pdf_output_path_of "/x/y/notebook.ipynb" = "/x/y/notebook.pdf".
Proof.
  split; [| split; reflexivity].
  intros nb. unfold markdown_path_of, pdf_output_path_of.
  destruct (derived_name nb ".md" eq_refl) as [Hd1 Hb1].
  destruct (derived_name nb ".pdf" eq_refl) as [Hd2 Hb2].
  repeat split; assumption.
Qed.

(** Where the script's base filename and the specification's
    "filename minus the final extension" part ways: a filename with two
    dots. *)
Lemma base_filename_not_final_extension :
  base_filename_of "/x/a.b.ipynb" = "a" /\
  strip_final_extension (basename "/x/a.b.ipynb") = "a.b" /\
  base_filename_of "/x/a.b.ipynb" <> strip_final_extension (basename "/x/a.b.ipynb").
Proof. repeat split. discriminate. Qed.

Lemma take_app_ge b x n :
  (String.length b <= n)%nat ->
  take n (b ++ x) = b ++ take (n - String.length b) x.
Proof.
  revert n. induction b as [|a b IH]; intros n Hn; cbn [append String.length] in *.
  - now rewrite Nat.sub_0_r.
  - destruct n as [|n]; [lia |]. cbn [take Nat.sub]. rewrite IH by lia. reflexivity.
Qed.

Lemma slice_to_keeps_prefix b x i :
  len b <= i -> exists t, slice_to i (b ++ x) = b ++ t.
Proof.
  intros Hi. unfold slice_to. eexists. apply take_app_ge.
  unfold bound. rewrite len_app.
  pose proof (len_nonneg b). pose proof (len_nonneg x).
  destruct (Z.ltb_spec i 0); [lia |]. unfold len in *. lia.
Qed.

(** C5 (amended): the base filename is the part of the notebook's
    filename before its first dot.  It equals the filename minus its
    final extension exactly when the filename has at most one dot and
    does not begin with a dot; in every case it is a prefix of that
    stripped name.  For every notebook path both derived filenames are
    built from the same base, in the notebook's directory. *)
Theorem base_filename_single_extension :
  forall nb,
    (contains "."%char (base_filename_of nb) = false /\
     (basename nb = base_filename_of nb \/
      exists rest, basename nb = base_filename_of nb ++ String "."%char rest)) /\
    (base_filename_of nb = strip_final_extension (basename nb) <->
     (count "."%char (basename nb) <= 1)%nat /\
     startswith "."%char (basename nb) = false) /\
    (exists t, strip_final_extension (basename nb) = base_filename_of nb ++ t) /\
    basename (markdown_path_of nb) = base_filename_of nb ++ ".md" /\
    basename (pdf_output_path_of nb) = base_filename_of nb ++ ".pdf" /\
    dirname (markdown_path_of nb) = dirname nb /\
    dirname (pdf_output_path_of nb) = dirname nb.
Proof.
  intros nb.
  destruct (derived_name nb ".md" eq_refl) as [Hd1 Hb1].
  destruct (derived_name nb ".pdf" eq_refl) as [Hd2 Hb2].
  split; [apply base_filename_first_dot |].
  cut ((base_filename_of nb = strip_final_extension (basename nb) <->
        (count "."%char (basename nb) <= 1)%nat /\
        startswith "."%char (basename nb) = false) /\
       (exists t, strip_final_extension (basename nb) = base_filename_of nb ++ t)).
  { intros [Hiff Hpre]. split; [exact Hiff |]. split; [exact Hpre |].
    repeat split; assumption. }
  destruct (base_filename_first_dot nb) as [Hb [He | (rest & He)]];
    set (b := base_filename_of nb) in *; rewrite He; unfold strip_final_extension;
    cbv zeta.
  - rewrite (rfind_absent _ _ Hb), (count_absent _ _ Hb),
      (startswith_absent _ _ Hb).
    cbn [Z.leb Z.compare andb]. split.
    + split; [intros _; split; [lia | reflexivity] | reflexivity].
    + exists EmptyString. now rewrite app_empty_r.
  - rewrite count_app, (count_absent _ _ Hb). cbn [count]. rewrite Ascii.eqb_refl.
    pose proof (len_nonneg b) as Hl.
    destruct (contains "."%char rest) eqn:Hr.
    + assert (Hp : contains "."%char (String "."%char rest) = true) by reflexivity.
      pose proof (rfind_present _ _ Hr) as H0.
      pose proof (rfind_upper "."%char (b ++ String "."%char rest)) as Hu.
      rewrite (rfind_app_present _ b _ Hp) in Hu |- *.
      rewrite (rfind_cons_found _ _ _ H0) in Hu |- *.
      assert (Hcount : (1 <= count "."%char rest)%nat).
      { destruct (count "."%char rest) eqn:Hn; [| lia].
        apply count_zero in Hn. congruence. }
      destruct ((0 <=? len b + (rfind "."%char rest + 1)) &&
                negb (all_c "."%char
                        (slice_to (len b + (rfind "."%char rest + 1))
                                  (b ++ String "."%char rest)))).
      * split.
        -- split; [| intros [Hc _]; lia].
           intros Heq. apply (f_equal len) in Heq.
           rewrite len_slice_to in Heq by lia. lia.
        -- apply slice_to_keeps_prefix. lia.
      * split.
        -- split; [| intros [Hc _]; lia].
           intros Heq. apply (f_equal len) in Heq.
           rewrite len_app, len_cons in Heq. pose proof (len_nonneg rest). lia.
        -- now exists (String "."%char rest).
    + rewrite (rfind_at _ b rest Hr), (count_absent _ _ Hr), slice_to_app.
      destruct (Z.leb_spec 0 (len b)); [| lia]. cbn [andb].
      destruct b as [|a b'].
      * cbn. split.
        -- split; [discriminate | intros [_ Hs]; discriminate Hs].
        -- now exists (String "."%char rest).
      * cbn [contains] in Hb. apply orb_false_iff in Hb as [Ha Hb'].
        rewrite all_c_cons, Ha. cbn [andb negb append startswith]. split.
        -- split; [intros _; split; [lia | exact Ha] | reflexivity].
        -- exists EmptyString. now rewrite app_empty_r.
Qed.

Lemma base_filename_single_extension_witness :
  ((count "."%char (basename notebook_path) <= 1)%nat /\
   startswith "."%char (basename notebook_path) = false) /\
  base_filename_of notebook_path = strip_final_extension (basename notebook_path).
Proof.
  assert (H : (count "."%char (basename notebook_path) <= 1)%nat /\
              startswith "."%char (basename notebook_path) = false).
  { split; [vm_compute; lia | reflexivity]. }
  split; [exact H |].
  destruct (base_filename_single_extension notebook_path) as (_ & Hiff & _).
  apply Hiff. exact H.
Defined.

(** C9: the base filename is what stands before the first dot of the
    notebook's filename (not the last): for [/x/a.b.ipynb] the derived
    paths are [/x/a.md] and [/x/a.pdf]; when the filename begins with a
    dot the base is empty and the derived files are named [.md] and
    [.pdf] in the notebook's directory. *)
Theorem base_filename_before_first_dot :
  forall nb,
    (contains "."%char (base_filename_of nb) = false /\
     (basename nb = base_filename_of nb \/
      exists rest, basename nb = base_filename_of nb ++ String "."%char rest)) /\
    (startswith "."%char (basename nb) = true ->
     base_filename_of nb = EmptyString /\
     markdown_path_of nb = join (dirname nb) ".md" /\
     pdf_output_path_of nb = join (dirname nb) ".pdf" /\
     basename (markdown_path_of nb) = ".md" /\
     basename (pdf_output_path_of nb) = ".pdf" /\
     dirname (markdown_path_of nb) = dirname nb /\
     dirname (pdf_output_path_of nb) = dirname nb) /\
    (base_filename_of "/x/a.b.ipynb" = "a" /\
     markdown_path_of "/x/a.b.ipynb" = "/x/a.md" /\
     pdf_output_path_of "/x/a.b.ipynb" = "/x/a.pdf" /\
     markdown_path_of "/x/.hidden.ipynb" = "/x/.md" /\
     pdf_output_path_of "/x/.hidden.ipynb" = "/x/.pdf").
Proof.
  intros nb. split; [apply base_filename_first_dot |].
  split; [| repeat split].
  intros Hdot.
  assert (Hbase : base_filename_of nb = EmptyString).
  { unfold base_filename_of. destruct (basename nb) as [|a r]; [discriminate |].
    cbn [startswith] in Hdot. cbn [split]. now rewrite Hdot. }
  destruct (derived_name nb ".md" eq_refl) as [Hd1 Hb1].
  destruct (derived_name nb ".pdf" eq_refl) as [Hd2 Hb2].
  unfold markdown_path_of, pdf_output_path_of.
  rewrite Hbase in *. cbn [append] in *.
  repeat split; assumption.
Qed.

Lemma base_filename_before_first_dot_witness :
  startswith "."%char (basename "/x/.hidden.ipynb") = true /\
  base_filename_of "/x/.hidden.ipynb" = EmptyString /\
  markdown_path_of "/x/.hidden.ipynb" = join (dirname "/x/.hidden.ipynb") ".md".
Proof.
  split; [reflexivity |].
  destruct (base_filename_before_first_dot "/x/.hidden.ipynb") as (_ & H & _).
  destruct (H eq_refl) as (Hb & Hm & _).
  split; assumption.
Defined.

(** * The two argument vectors *)

Lemma append_loop (f : string * string -> string) md init :
  fold_left (fun cmd kv => (cmd ++ [f kv])%list) md init = (init ++ map f md)%list.
Proof.
  revert init. induction md as [|kv md IH]; intros init; cbn [fold_left map].
  - now rewrite app_nil_r.
  - rewrite IH, <- app_assoc. reflexivity.
Qed.

Lemma pandoc_command_of_eq nb md :
  pandoc_command_of nb md =
  "pandoc" :: markdown_path_of nb :: "-o" :: pdf_output_path_of nb ::
  map (fun kv => metadata_arg (fst kv) (snd kv)) md.
Proof. unfold pandoc_command_of. now rewrite append_loop. Qed.

Lemma commands_differ nb md : nbconvert_command_of nb <> pandoc_command_of nb md.
Proof. rewrite pandoc_command_of_eq. discriminate. Qed.

(** C3: the pandoc argument vector is [pandoc <markdown_path> -o
    <pdf_path>] followed by one [--metadata=key=value] per entry of the
    metadata table, in the table's order, the value unchanged. *)
Theorem pandoc_command_metadata :
  (forall nb md,
     pandoc_command_of nb md =
     List.app ["pandoc"; markdown_path_of nb; "-o"; pdf_output_path_of nb]
              (map (fun kv => "--metadata=" ++ fst kv ++ "=" ++ snd kv) md)) /\
  map fst metadata =
    ["title"; "author"; "date"; "abstract"; "subtitle"; "keywords"; "thanks";
     "email"; "institute"] /\
  pandoc_command =
    List.app ["pandoc"; markdown_path; "-o"; pdf_output_path]
     [ "--metadata=title=Autoyos: Eye Blink Data Analysis";
       "--metadata=author=Karthik Dani: 1BM22MD022";
       "--metadata=date=2024-06-26";
       "--metadata=abstract=This study investigates blinking behavior using longitudinal data analysis techniques. By analyzing blink durations, interblink intervals, and blink rates over multiple months, we uncover nuanced patterns and variations. Statistical analysis and visualizations reveal trends in blinking habits, shedding light on potential factors influencing these behaviors. This exploration offers valuable insights into the dynamics of blinking patterns.";
       "--metadata=subtitle=Statistically Understanding Blinking Behavior across April, May and June";
       "--metadata=keywords=Data analysis";
       "--metadata=thanks=*";
       "--metadata=email=karthikdani14@gmail.com";
       "--metadata=institute=BMS College of Engineering, Bangalore" ] /\
  List.length pandoc_command = (4 + List.length metadata)%nat /\
  Forall (fun key => List.length (filter (is_metadata_for key) pandoc_command) = 1%nat)
         (map fst metadata).
Proof.
  split; [intros nb md; apply pandoc_command_of_eq |].
  split; [reflexivity |].
  split; [reflexivity |].
  split; [reflexivity |].
  repeat constructor.
Qed.

(** * Runs of the script *)

(** Enumerate the ways a known list splits into [pre ++ post]. *)
Ltac split_cases H :=
  match type of H with
  | _ = (?pre ++ ?post)%list =>
      let e := fresh "e" in
      destruct pre as [|e pre]; cbn [List.app] in H;
      [ subst post
      | first [ discriminate H
              | injection H as <- H; split_cases H ] ]
  end.


Section RunFacts.

Variable World : Type.
Variable spawn : list string -> World -> child * World.
Variable str : exn -> string.
Variable nb : string.
Variable md : list (string * string).

Local Abbreviation nbc := (nbconvert_command_of nb).
Local Abbreviation pdc := (pandoc_command_of nb md).
Local Abbreviation ok1 := ("Converted notebook to Markdown: " ++ markdown_path_of nb).
Local Abbreviation ok2 :=
  ("Successfully converted Markdown to PDF: " ++ pdf_output_path_of nb).
Local Abbreviation err1 rc :=
  ("Error during Markdown conversion: " ++ str (CalledProcessError nbc rc)).
Local Abbreviation err2 rc :=
  ("Error during PDF conversion: " ++ str (CalledProcessError pdc rc)).
Local Abbreviation program := (script World spawn str nb md).
Local Abbreviation outcome := (Run.outcome World str nb md).

Ltac step_run :=
  unfold run, script, stage1, stage2, bind, try_except,
    subprocess_run, print, emit, exit, raise, except_CalledProcessError;
  cbn [world trace app].

Lemma run_stage1_not_started w what w1 :
  spawn nbc w = (NotStarted what, w1) ->
  run program w = (Raise (OSError what), mkState w1 [NoStart nbc]).
Proof. intros H. step_run. rewrite H. reflexivity. Qed.

Lemma run_stage1_failed w rc w1 :
  spawn nbc w = (Finished rc, w1) -> rc <> 0 ->
  run program w =
  (Raise (SystemExit 1), mkState w1 [Start nbc; Exit rc; Print (err1 rc)]).
Proof.
  intros H Hrc. step_run. rewrite H.
  apply Z.eqb_neq in Hrc. rewrite Hrc. reflexivity.
Qed.

Lemma run_stage2_not_started w w1 what w2 :
  spawn nbc w = (Finished 0, w1) ->
  spawn pdc w1 = (NotStarted what, w2) ->
  run program w =
  (Raise (OSError what), mkState w2 [Start nbc; Exit 0; Print ok1; NoStart pdc]).
Proof.
  intros H1 H2. step_run. rewrite H1. cbn [Z.eqb negb andb world trace app].
  rewrite H2. reflexivity.
Qed.

Lemma run_stage2_failed w w1 rc w2 :
  spawn nbc w = (Finished 0, w1) ->
  spawn pdc w1 = (Finished rc, w2) -> rc <> 0 ->
  run program w =
  (Val tt, mkState w2 [Start nbc; Exit 0; Print ok1; Start pdc; Exit rc; Print (err2 rc)]).
Proof.
  intros H1 H2 Hrc. step_run. rewrite H1. cbn [Z.eqb negb andb world trace app].
  rewrite H2. apply Z.eqb_neq in Hrc. rewrite Hrc. reflexivity.
Qed.

Lemma run_both_succeed w w1 w2 :
  spawn nbc w = (Finished 0, w1) ->
  spawn pdc w1 = (Finished 0, w2) ->
  run program w =
  (Val tt, mkState w2 [Start nbc; Exit 0; Print ok1; Start pdc; Exit 0; Print ok2]).
Proof.
  intros H1 H2. step_run. rewrite H1. cbn [Z.eqb negb andb world trace app].
  rewrite H2. reflexivity.
Qed.

Lemma run_outcome w : outcome (run program w).
Proof.
  destruct (spawn nbc w) as [[rc | what] w1] eqn:H1.
  - destruct (Z.eq_dec rc 0) as [-> | Hrc].
    + destruct (spawn pdc w1) as [[rc2 | what] w2] eqn:H2.
      * destruct (Z.eq_dec rc2 0) as [-> | Hrc2].
        -- rewrite (run_both_succeed w w1 w2 H1 H2). constructor.
        -- rewrite (run_stage2_failed w w1 rc2 w2 H1 H2 Hrc2). now constructor.
      * rewrite (run_stage2_not_started w w1 what w2 H1 H2). constructor.
    + rewrite (run_stage1_failed w rc w1 H1 Hrc). now constructor.
  - rewrite (run_stage1_not_started w what w1 H1). constructor.
Qed.

Lemma run_invocations w :
  invocations (trace (snd (run program w))) = [nbc] \/
  invocations (trace (snd (run program w))) = [nbc; pdc].
Proof. destruct (run_outcome w); cbn; auto. Qed.

(** Cutting the trace of a run anywhere: at most one child is live
    before the cut, no child is live when a command is invoked, and
    pandoc is invoked right after nbconvert's success line. *)
Lemma run_sequential w pre post :
  trace (snd (run program w)) = (pre ++ post)%list ->
  0 <= live pre <= 1 /\
  (forall args,
     hd_error post = Some (Start args) \/ hd_error post = Some (NoStart args) ->
     live pre = 0) /\
  (hd_error post = Some (Start pdc) \/ hd_error post = Some (NoStart pdc) ->
   pre = [Start nbc; Exit 0; Print ok1]).
Proof.
  pose proof (commands_differ nb md) as Hdiff.
  destruct (run_outcome w); cbn [snd trace];
    intros Hsplit; split_cases Hsplit; cbn [live hd_error];
    (split; [lia |]); (split; [intros args [Hh | Hh]; solve [discriminate Hh | lia] |]);
    intros [Hh | Hh]; try discriminate Hh; try reflexivity;
    injection Hh as Hh; congruence.
Qed.

End RunFacts.

(** C1: when the nbconvert child ends with a non-zero code, the script
    catches the error, prints its report, ends with exit status 1, and
    pandoc is never invoked. *)
Theorem stage1_failure_aborts :
  forall World spawn str (w w1 : World) rc,
    spawn nbconvert_command w = (Finished rc, w1) ->
    rc <> 0 ->
    fst (run (main World spawn str) w) = Raise (SystemExit 1) /\
    exit_status (fst (run (main World spawn str) w)) = 1 /\
    printed (trace (snd (run (main World spawn str) w))) =
      ["Error during Markdown conversion: " ++
       str (CalledProcessError nbconvert_command rc)] /\
    invocations (trace (snd (run (main World spawn str) w))) = [nbconvert_command] /\
    ~ In pandoc_command (invocations (trace (snd (run (main World spawn str) w)))).
Proof.
  intros World spawn str w w1 rc H Hrc. unfold main.
  rewrite (run_stage1_failed World spawn str notebook_path metadata w rc w1 H Hrc).
  cbn [fst snd trace printed invocations exit_status].
  repeat split.
  intros [Heq | []]. exact (commands_differ notebook_path metadata Heq).
Qed.

Lemma stage1_failure_aborts_witness :
  always 3 nbconvert_command tt = (Finished 3, tt) /\
  3 <> 0 /\
  exit_status (fst (run (main unit (always 3) no_str) tt)) = 1 /\
  ~ In pandoc_command (invocations (trace (snd (run (main unit (always 3) no_str) tt)))).
Proof.
  split; [reflexivity |]. split; [lia |].
  destruct (stage1_failure_aborts unit (always 3) no_str tt tt 3 eq_refl)
    as (_ & Hs & _ & _ & Hn); [lia |].
  split; assumption.
Defined.

(** C2: when nbconvert succeeds and the pandoc child ends with a
    non-zero code, the error is only printed; the script runs off its end
    and the exit status is 0. *)
Theorem stage2_failure_only_reported :
  forall World spawn str (w w1 w2 : World) rc,
    spawn nbconvert_command w = (Finished 0, w1) ->
    spawn pandoc_command w1 = (Finished rc, w2) ->
    rc <> 0 ->
    fst (run (main World spawn str) w) = Val tt /\
    exit_status (fst (run (main World spawn str) w)) = 0 /\
    trace (snd (run (main World spawn str) w)) =
      [ Start nbconvert_command; Exit 0;
        Print ("Converted notebook to Markdown: " ++ markdown_path);
        Start pandoc_command; Exit rc;
        Print ("Error during PDF conversion: " ++
               str (CalledProcessError pandoc_command rc)) ].
Proof.
  intros World spawn str w w1 w2 rc H1 H2 Hrc. unfold main.
  rewrite (run_stage2_failed World spawn str notebook_path metadata w w1 rc w2 H1 H2 Hrc).
  repeat split.
Qed.

Lemma stage2_failure_only_reported_witness :
  scripted nbconvert_command [Finished 0; Finished 2] = (Finished 0, [Finished 2]) /\
  scripted pandoc_command [Finished 2] = (Finished 2, []) /\
  2 <> 0 /\
  exit_status (fst (run (main (list child) scripted no_str) [Finished 0; Finished 2])) = 0.
Proof.
  split; [reflexivity |]. split; [reflexivity |]. split; [lia |].
  destruct (stage2_failure_only_reported (list child) scripted no_str
              [Finished 0; Finished 2] [Finished 2] [] 2 eq_refl eq_refl)
    as (_ & Hs & _); [lia |].
  exact Hs.
Defined.

(** C6: the first command the script runs is [jupyter nbconvert --to
    markdown --TagRemovePreprocessor.enabled=True
    --TagRemovePreprocessor.remove_cell_tags=<dquote>exclude-output
    <notebook_path>]: seven arguments, the flag value opening with a
    double quote that is never closed, the notebook path last. *)
Theorem nbconvert_command_exact :
  (forall World spawn str (w : World),
     hd_error (invocations (trace (snd (run (main World spawn str) w)))) =
     Some [ "jupyter"; "nbconvert"; "--to"; "markdown";
            "--TagRemovePreprocessor.enabled=True";
            "--TagRemovePreprocessor.remove_cell_tags=" ++
              String (ascii_of_nat 34) "exclude-output";
            "/Users/karthik/Desktop/Autoyos/data_analyst_assignment/autoyos_eye_blink_analysis_karthik_dani.ipynb" ]) /\
  (forall nb,
     nbconvert_command_of nb =
     [ "jupyter"; "nbconvert"; "--to"; "markdown";
       "--TagRemovePreprocessor.enabled=True";
       "--TagRemovePreprocessor.remove_cell_tags=" ++
         String (ascii_of_nat 34) "exclude-output";
       nb ] /\
     List.length (nbconvert_command_of nb) = 7%nat /\
     nth_error (nbconvert_command_of nb) 6 = Some nb /\
     exists flag,
       nth_error (nbconvert_command_of nb) 5 = Some flag /\
       slice_to 41 flag = "--TagRemovePreprocessor.remove_cell_tags=" /\
       slice_from 41 flag = String (ascii_of_nat 34) "exclude-output" /\
       count (ascii_of_nat 34) flag = 1%nat).
Proof.
  split.
  - intros World spawn str w. unfold main.
    destruct (run_invocations World spawn str notebook_path metadata w) as [-> | ->];
      reflexivity.
  - intros nb. do 3 (split; [reflexivity |]).
    eexists. split; [reflexivity |]. repeat split.
Qed.

(** C7: the run is sequential.  Wherever the trace of a run is cut, at
    most one child is live; a command is only ever invoked while no child
    is live; and the pandoc invocation comes directly after the nbconvert
    child has been started, has ended with code 0, and its success line
    has been printed. *)
Theorem stage2_after_stage1 :
  forall World spawn str (w : World) pre post,
    trace (snd (run (main World spawn str) w)) = (pre ++ post)%list ->
    0 <= live pre <= 1 /\
    (forall args,
       hd_error post = Some (Start args) \/ hd_error post = Some (NoStart args) ->
       live pre = 0) /\
    (hd_error post = Some (Start pandoc_command) \/
     hd_error post = Some (NoStart pandoc_command) ->
     pre = [ Start nbconvert_command; Exit 0;
             Print ("Converted notebook to Markdown: " ++ markdown_path) ]).
Proof.
  intros World spawn str w pre post.
  exact (run_sequential World spawn str notebook_path metadata w pre post).
Qed.

Lemma stage2_after_stage1_witness :
  trace (snd (run (main unit (always 0) no_str) tt)) =
    ([ Start nbconvert_command; Exit 0;
       Print ("Converted notebook to Markdown: " ++ markdown_path) ] ++
     [ Start pandoc_command; Exit 0;
       Print ("Successfully converted Markdown to PDF: " ++ pdf_output_path) ])%list /\
  live [ Start nbconvert_command; Exit 0;
         Print ("Converted notebook to Markdown: " ++ markdown_path) ] = 0.
Proof.
  split; [reflexivity |].
  destruct (stage2_after_stage1 unit (always 0) no_str tt
              [ Start nbconvert_command; Exit 0;
                Print ("Converted notebook to Markdown: " ++ markdown_path) ]
              [ Start pandoc_command; Exit 0;
                Print ("Successfully converted Markdown to PDF: " ++ pdf_output_path) ]
              eq_refl) as (_ & Hl & _).
  apply (Hl pandoc_command). left. reflexivity.
Defined.

(** C8: the script handles a non-zero return code, in each stage, and
    nothing else.  A [CalledProcessError] never leaves the script: a
    non-zero code from nbconvert is caught, reported, and turned into
    [exit(1)]; a non-zero code from pandoc is caught and reported, and
    the script runs on to its end.  An error report is printed exactly in
    the runs where some child ended with a non-zero code.  When a child
    cannot be started, the exception passes through both [except]
    clauses: the run ends in that [OSError], uncaught, with no error
    report printed by the script. *)
Theorem only_nonzero_exit_handled :
  forall World spawn str (w : World),
    (forall line,
       In line (printed (trace (snd (run (main World spawn str) w)))) ->
       is_error_report line = true ->
       exists rc, rc <> 0 /\ In (Exit rc) (trace (snd (run (main World spawn str) w)))) /\
    (forall args,
       In (NoStart args) (trace (snd (run (main World spawn str) w))) ->
       (exists what, fst (run (main World spawn str) w) = Raise (OSError what)) /\
       exit_status (fst (run (main World spawn str) w)) = 1 /\
       forall line,
         In line (printed (trace (snd (run (main World spawn str) w)))) ->
         is_error_report line = false) /\
    (forall what w1,
       spawn nbconvert_command w = (NotStarted what, w1) ->
       run (main World spawn str) w =
       (Raise (OSError what), mkState w1 [NoStart nbconvert_command])) /\
    (forall w1 what w2,
       spawn nbconvert_command w = (Finished 0, w1) ->
       spawn pandoc_command w1 = (NotStarted what, w2) ->
       run (main World spawn str) w =
       (Raise (OSError what),
        mkState w2 [ Start nbconvert_command; Exit 0;
                     Print ("Converted notebook to Markdown: " ++ markdown_path);
                     NoStart pandoc_command ])) /\
    (forall cmd rc,
       fst (run (main World spawn str) w) <> Raise (CalledProcessError cmd rc)) /\
    (forall rc,
       rc <> 0 ->
       In (Exit rc) (trace (snd (run (main World spawn str) w))) ->
       exists line,
         In line (printed (trace (snd (run (main World spawn str) w)))) /\
         is_error_report line = true) /\
    (forall rc w1,
       spawn nbconvert_command w = (Finished rc, w1) ->
       rc <> 0 ->
       run (main World spawn str) w =
       (Raise (SystemExit 1),
        mkState w1 [ Start nbconvert_command; Exit rc;
                     Print ("Error during Markdown conversion: " ++
                            str (CalledProcessError nbconvert_command rc)) ])) /\
    (forall w1 rc w2,
       spawn nbconvert_command w = (Finished 0, w1) ->
       spawn pandoc_command w1 = (Finished rc, w2) ->
       rc <> 0 ->
       run (main World spawn str) w =
       (Val tt,
        mkState w2 [ Start nbconvert_command; Exit 0;
                     Print ("Converted notebook to Markdown: " ++ markdown_path);
                     Start pandoc_command; Exit rc;
                     Print ("Error during PDF conversion: " ++
                            str (CalledProcessError pandoc_command rc)) ])).
Proof.
  intros World spawn str w. unfold main.
  split; [| split; [| split; [| split; [| split; [| split; [| split]]]]]].
  - destruct (run_outcome World spawn str notebook_path metadata w) as
      [what w1 | rc w1 Hrc | what w2 | rc w2 Hrc | w2];
      cbn [snd trace printed]; intros line Hin Herr.
    + destruct Hin.
    + exists rc. split; [exact Hrc |]. right. left. reflexivity.
    + destruct Hin as [<- | []]. discriminate Herr.
    + exists rc. split; [exact Hrc |]. do 4 right. left. reflexivity.
    + destruct Hin as [<- | [<- | []]]; discriminate Herr.
  - destruct (run_outcome World spawn str notebook_path metadata w) as
      [what w1 | rc w1 Hrc | what w2 | rc w2 Hrc | w2];
      cbn [fst snd trace printed exit_status]; intros args Hin.
    + split; [now exists what |]. split; [reflexivity |]. intros line [].
    + destruct Hin as [Hin | [Hin | [Hin | []]]]; discriminate Hin.
    + split; [now exists what |]. split; [reflexivity |].
      intros line [<- | []]. reflexivity.
    + repeat (destruct Hin as [Hin | Hin]; [discriminate Hin |]). destruct Hin.
    + repeat (destruct Hin as [Hin | Hin]; [discriminate Hin |]). destruct Hin.
  - intros what w1 H.
    apply (run_stage1_not_started World spawn str notebook_path metadata w what w1 H).
  - intros w1 what w2 H1 H2.
    apply (run_stage2_not_started World spawn str notebook_path metadata w w1 what w2 H1 H2).
  - intros cmd rc.
    destruct (run_outcome World spawn str notebook_path metadata w);
      cbn [fst]; discriminate.
  - intros rc Hrc.
    destruct (run_outcome World spawn str notebook_path metadata w) as
      [what w1 | rc1 w1 Hrc1 | what w2 | rc2 w2 Hrc2 | w2];
      cbn [snd trace printed]; intros Hin.
    + destruct Hin as [Hin | []]. discriminate Hin.
    + eexists. split; [left; reflexivity | reflexivity].
    + repeat (destruct Hin as [Hin | Hin];
              [first [discriminate Hin | injection Hin as Hin; congruence] |]).
      destruct Hin.
    + eexists. split; [right; left; reflexivity | reflexivity].
    + repeat (destruct Hin as [Hin | Hin];
              [first [discriminate Hin | injection Hin as Hin; congruence] |]).
      destruct Hin.
  - intros rc w1 H Hrc.
    apply (run_stage1_failed World spawn str notebook_path metadata w rc w1 H Hrc).
  - intros w1 rc w2 H1 H2 Hrc.
    apply (run_stage2_failed World spawn str notebook_path metadata w w1 rc w2 H1 H2 Hrc).
Qed.

Lemma only_nonzero_exit_handled_witness :
  (scripted nbconvert_command [] = (NotStarted "no such file", []) /\
   run (main (list child) scripted no_str) [] =
   (Raise (OSError "no such file"), mkState [] [NoStart nbconvert_command])) /\
  (scripted nbconvert_command [Finished 3] = (Finished 3, []) /\
   3 <> 0 /\
   run (main (list child) scripted no_str) [Finished 3] =
   (Raise (SystemExit 1),
    mkState [] [ Start nbconvert_command; Exit 3;
                 Print ("Error during Markdown conversion: " ++
                        no_str (CalledProcessError nbconvert_command 3)) ])) /\
  (scripted nbconvert_command [Finished 0; Finished 2] = (Finished 0, [Finished 2]) /\
   scripted pandoc_command [Finished 2] = (Finished 2, []) /\
   2 <> 0 /\
   fst (run (main (list child) scripted no_str) [Finished 0; Finished 2]) = Val tt).
Proof.
  split; [| split].
  - split; [reflexivity |].
    destruct (only_nonzero_exit_handled (list child) scripted no_str [])
      as (_ & _ & H & _).
    apply (H "no such file" []). reflexivity.
  - split; [reflexivity |]. split; [lia |].
    destruct (only_nonzero_exit_handled (list child) scripted no_str [Finished 3])
      as (_ & _ & _ & _ & _ & _ & H & _).
    apply (H 3 []); [reflexivity | lia].
  - split; [reflexivity |]. split; [reflexivity |]. split; [lia |].
    destruct (only_nonzero_exit_handled (list child) scripted no_str
                [Finished 0; Finished 2])
      as (_ & _ & _ & _ & _ & _ & _ & H).
    rewrite (H [Finished 2] 2 []); [reflexivity | reflexivity | reflexivity | lia].
Defined.

(** C10: the argument vectors do not depend on the run.  In any two
    runs of the script on the same notebook path and metadata table, in
    whatever environments, the n-th command invoked is the same argument
    vector, and it is one of the two vectors computed from the notebook
    path and the table alone. *)
Theorem argument_vectors_deterministic :
  forall World1 spawn1 str1 World2 spawn2 str2 nb md (w1 : World1) (w2 : World2) n a1 a2,
    nth_error (invocations (trace (snd (run (script World1 spawn1 str1 nb md) w1)))) n
      = Some a1 ->
    nth_error (invocations (trace (snd (run (script World2 spawn2 str2 nb md) w2)))) n
      = Some a2 ->
    a1 = a2 /\
    (a1 = nbconvert_command_of nb \/ a1 = pandoc_command_of nb md).
Proof.
  intros World1 spawn1 str1 World2 spawn2 str2 nb md w1 w2 n a1 a2.
  destruct (run_invocations World1 spawn1 str1 nb md w1) as [-> | ->];
    destruct (run_invocations World2 spawn2 str2 nb md w2) as [-> | ->];
    destruct n as [|[|[|n]]]; cbn [nth_error]; intros H1 H2;
    try discriminate H1; try discriminate H2;
    injection H1 as <-; injection H2 as <-; auto.
Qed.

Lemma argument_vectors_deterministic_witness :
  nth_error (invocations (trace (snd (run (script unit (always 0) no_str
                                             notebook_path metadata) tt)))) 1
    = Some pandoc_command /\
  nth_error (invocations (trace (snd (run (script (list child) scripted no_str
                                             notebook_path metadata)
                                        [Finished 0; Finished 2])))) 1
    = Some pandoc_command /\
  pandoc_command = pandoc_command.
Proof.
  split; [reflexivity |]. split; [reflexivity |].
  apply (argument_vectors_deterministic unit (always 0) no_str
           (list child) scripted no_str notebook_path metadata
           tt [Finished 0; Finished 2] 1 pandoc_command pandoc_command
           eq_refl eq_refl).
Defined.


(** * Further properties of the string and path operations *)

Section MoreStrFacts.

Variable c : ascii.

Lemma app_inv_head_str (x y z : string) : x ++ y = x ++ z -> y = z.
Proof.
  induction x as [|a x IH]; cbn [append]; [trivial |].
  intros H. injection H as H. now apply IH.
Qed.

(** The text before the first [c] and the text after it are determined
    by the whole string. *)
Lemma app_sep_inj x1 r1 x2 r2 :
  contains c x1 = false -> contains c x2 = false ->
  x1 ++ String c r1 = x2 ++ String c r2 -> x1 = x2 /\ r1 = r2.
Proof.
  revert x2. induction x1 as [|a x1 IH]; intros [|b x2]; cbn [append contains];
    intros H1 H2 H.
  - injection H as ->. now split.
  - injection H as <- _. rewrite Ascii.eqb_refl in H2. discriminate.
  - injection H as -> _. rewrite Ascii.eqb_refl in H1. discriminate.
  - injection H as -> H.
    apply orb_false_iff in H1 as [_ H1]. apply orb_false_iff in H2 as [_ H2].
    destruct (IH x2 H1 H2 H) as [-> ->]. now split.
Qed.

Lemma split_app_first x rest :
  contains c x = false ->
  exists xs, split c (x ++ String c rest) = x :: xs.
Proof.
  induction x as [|a x IH]; cbn [append contains split]; intros H.
  - rewrite Ascii.eqb_refl. now eexists.
  - apply orb_false_iff in H as [Ha Hx]. rewrite Ha.
    destruct (IH Hx) as (xs & ->). now eexists.
Qed.

Lemma take_drop n s : take n s ++ drop n s = s.
Proof.
  revert s. induction n as [|n IH]; intros [|a s]; cbn; try reflexivity.
  now rewrite IH.
Qed.

Lemma rstrip_prefix s : exists n, s = rstrip c s ++ replicate c n.
Proof.
  induction s as [|a s (n & IH)]; [now exists O |].
  cbn [rstrip]. destruct (rstrip c s) as [|b r] eqn:Hr.
  - cbn [append] in IH. destruct (a =? c)%char eqn:Ha.
    + apply Ascii.eqb_eq in Ha. subst a. exists (S n). cbn. now rewrite <- IH.
    + exists n. cbn. now rewrite <- IH.
  - exists n. cbn [append] in IH |- *. now rewrite <- IH.
Qed.

Lemma split_pieces_clean s : Forall (fun x => contains c x = false) (split c s).
Proof.
  induction s as [|a s IH]; cbn [split].
  - now repeat constructor.
  - destruct (a =? c)%char eqn:Ha.
    + now constructor.
    + destruct (split c s) as [|x xs].
      * repeat constructor. cbn. now rewrite Ha.
      * inversion IH as [|? ? Hx Hxs]; subst. constructor; [| assumption].
        cbn. now rewrite Ha, Hx.
Qed.

Lemma split_length s : List.length (split c s) = S (count c s).
Proof.
  induction s as [|a s IH]; cbn [split count]; [reflexivity |].
  destruct (a =? c)%char.
  - cbn [List.length]. now rewrite IH.
  - destruct (split c s) as [|x xs]; cbn [List.length] in *; lia.
Qed.

Lemma concat_split s : concat (String c EmptyString) (split c s) = s.
Proof.
  induction s as [|a s IH]; cbn [split]; [reflexivity |].
  pose proof (split_nonempty c s) as Hne.
  destruct (a =? c)%char eqn:Ha.
  - apply Ascii.eqb_eq in Ha. subst a.
    destruct (split c s) as [|x xs]; [congruence |].
    cbn [concat append] in IH |- *. now rewrite IH.
  - destruct (split c s) as [|x xs]; [congruence |].
    destruct xs as [|y ys]; cbn [concat append] in IH |- *; now rewrite IH.
Qed.

End MoreStrFacts.

(** X1: [split] loses nothing: joining the pieces with the separator
    gives the string back, no piece contains the separator, and there is
    one more piece than there are separators. *)
Theorem split_concat_roundtrip :
  forall c s,
    concat (String c EmptyString) (split c s) = s /\
    Forall (fun x => contains c x = false) (split c s) /\
    List.length (split c s) = S (count c s).
Proof.
  intros c s. split; [apply concat_split |].
  split; [apply split_pieces_clean | apply split_length].
Qed.

(** X2: every path is its [dirname], then a run of separators, then its
    [basename]; and the [basename] holds no separator. *)
Theorem path_is_dirname_seps_basename :
  forall p,
    (exists n, p = dirname p ++ replicate sep n ++ basename p) /\
    contains sep (basename p) = false.
Proof.
  intros p. split; [| apply basename_no_sep].
  destruct (last_cut sep p) as (h & t & -> & Hh & Ht).
  rewrite (basename_cut h t Hh Ht), (dirname_cut h t Hh Ht).
  destruct (negb (h =? EmptyString)%string && negb (all_c sep h)).
  - destruct (rstrip_prefix sep h) as (n & Hn). exists n.
    rewrite <- app_assoc', <- Hn. reflexivity.
  - exists O. reflexivity.
Qed.

(** X3: [join] followed by [dirname] and [basename] gives the two parts
    back, when the directory is one that [dirname] can return (it ends in
    a separator only if it is all separators) and the name holds no
    separator.  In particular this holds for the [dirname] and [basename]
    of any path. *)
Theorem join_then_split :
  (forall d b,
     normal_dir d -> contains sep b = false ->
     dirname (join d b) = d /\ basename (join d b) = b) /\
  (forall p,
     dirname (join (dirname p) (basename p)) = dirname p /\
     basename (join (dirname p) (basename p)) = basename p).
Proof.
  assert (H : forall d b, normal_dir d -> contains sep b = false ->
                          dirname (join d b) = d /\ basename (join d b) = b).
  { intros d b Hd Hb. split; [now apply dirname_join | now apply basename_join]. }
  split; [exact H |].
  intros p. apply H; [apply dirname_normal | apply basename_no_sep].
Qed.

Lemma join_then_split_witness :
  normal_dir "/x/y" /\ contains sep "notebook.md" = false /\
  dirname (join "/x/y" "notebook.md") = "/x/y" /\
  basename (join "/x/y" "notebook.md") = "notebook.md".
Proof.
  assert (Hd : normal_dir "/x/y") by (intros H; discriminate H).
  split; [exact Hd |]. split; [reflexivity |].
  apply (proj1 join_then_split "/x/y" "notebook.md" Hd eq_refl).
Defined.

(** X4: the markdown path and the PDF path are never the same file. *)
Theorem derived_paths_distinct :
  forall nb, markdown_path_of nb <> pdf_output_path_of nb.
Proof.
  intros nb Heq.
  destruct (derived_name nb ".md" eq_refl) as [_ Hb1].
  destruct (derived_name nb ".pdf" eq_refl) as [_ Hb2].
  unfold markdown_path_of, pdf_output_path_of in Heq.
  rewrite Heq, Hb2 in Hb1. apply app_inv_head_str in Hb1. discriminate Hb1.
Qed.

Lemma base_filename_of_derived nb ext :
  contains sep (String "."%char ext) = false ->
  base_filename_of (join (dirname nb) (base_filename_of nb ++ String "."%char ext))
  = base_filename_of nb.
Proof.
  intros He. destruct (derived_name nb _ He) as [_ Hb].
  unfold base_filename_of at 1. rewrite Hb.
  destruct (base_filename_first_dot nb) as [Hdot _].
  destruct (split_app_first "."%char (base_filename_of nb) ext Hdot) as (xs & ->).
  reflexivity.
Qed.

(** X5: deriving again from a derived path changes nothing: the
    markdown path and the PDF path have the notebook's base filename and
    directory, so they derive the same two paths as the notebook does. *)
Theorem derived_paths_stable :
  forall nb,
    base_filename_of (markdown_path_of nb) = base_filename_of nb /\
    base_filename_of (pdf_output_path_of nb) = base_filename_of nb /\
    markdown_path_of (markdown_path_of nb) = markdown_path_of nb /\
    pdf_output_path_of (markdown_path_of nb) = pdf_output_path_of nb /\
    markdown_path_of (pdf_output_path_of nb) = markdown_path_of nb /\
    pdf_output_path_of (pdf_output_path_of nb) = pdf_output_path_of nb.
Proof.
  intros nb.
  pose proof (base_filename_of_derived nb "md" eq_refl) as B1.
  pose proof (base_filename_of_derived nb "pdf" eq_refl) as B2.
  destruct (derived_name nb ".md" eq_refl) as [D1 _].
  destruct (derived_name nb ".pdf" eq_refl) as [D2 _].
  unfold markdown_path_of, pdf_output_path_of.
  change ".md" with (String "."%char "md") in *.
  change ".pdf" with (String "."%char "pdf") in *.
  rewrite B1, B2, D1, D2. repeat split.
Qed.

(** X6: a notebook path without any separator has an empty directory,
    and the derived paths are the bare names [<base>.md] and
    [<base>.pdf], with no separator put in front. *)
Theorem bare_filename_paths :
  forall nb,
    contains sep nb = false ->
    dirname nb = EmptyString /\
    basename nb = nb /\
    markdown_path_of nb = base_filename_of nb ++ ".md" /\
    pdf_output_path_of nb = base_filename_of nb ++ ".pdf".
Proof.
  intros nb Hnb.
  assert (Hd : dirname nb = EmptyString).
  { exact (dirname_cut EmptyString nb (or_introl eq_refl) Hnb). }
  assert (Hs : forall ext, contains sep ext = false ->
                           join EmptyString (base_filename_of nb ++ ext)
                           = base_filename_of nb ++ ext).
  { intros ext He. unfold join.
    rewrite (startswith_absent sep); [reflexivity |].
    now rewrite contains_app, base_filename_no_sep, He. }
  split; [exact Hd |].
  split; [exact (basename_cut EmptyString nb (or_introl eq_refl) Hnb) |].
  unfold markdown_path_of, pdf_output_path_of. rewrite Hd.
  split; apply Hs; reflexivity.
Qed.

Lemma bare_filename_paths_witness :
  contains sep "notebook.ipynb" = false /\
  markdown_path_of "notebook.ipynb" = base_filename_of "notebook.ipynb" ++ ".md".
Proof.
  split; [reflexivity |].
  apply (bare_filename_paths "notebook.ipynb" eq_refl).
Defined.

(** X7: a notebook path that ends in a separator has an empty filename
    and so an empty base: the derived files are named [.md] and [.pdf]. *)
Theorem trailing_separator_paths :
  forall nb,
    endswith sep nb = true ->
    basename nb = EmptyString /\
    base_filename_of nb = EmptyString /\
    markdown_path_of nb = join (dirname nb) ".md" /\
    pdf_output_path_of nb = join (dirname nb) ".pdf".
Proof.
  intros nb Hnb.
  assert (Hb : basename nb = EmptyString).
  { pose proof (basename_cut nb EmptyString (or_intror Hnb) eq_refl) as H.
    now rewrite app_empty_r in H. }
  assert (Hbase : base_filename_of nb = EmptyString).
  { unfold base_filename_of. now rewrite Hb. }
  unfold markdown_path_of, pdf_output_path_of. rewrite Hbase.
  repeat split; assumption.
Qed.

Lemma trailing_separator_paths_witness :
  endswith sep "/x/y/" = true /\
  markdown_path_of "/x/y/" = join (dirname "/x/y/") ".md".
Proof.
  split; [reflexivity |].
  apply (trailing_separator_paths "/x/y/" eq_refl).
Defined.

(** X8: a metadata argument determines its key and value when the key
    holds no [=]; nothing is escaped, so a key with [=] in it gives the
    same argument as a shorter key with the rest moved into the value. *)
Theorem metadata_arg_injective :
  (forall k1 v1 k2 v2,
     contains "="%char k1 = false -> contains "="%char k2 = false ->
     metadata_arg k1 v1 = metadata_arg k2 v2 -> k1 = k2 /\ v1 = v2) /\
  metadata_arg "a=b" "c" = metadata_arg "a" "b=c".
Proof.
  split; [| reflexivity].
  intros k1 v1 k2 v2 H1 H2 H. unfold metadata_arg in H.
  apply app_inv_head_str in H.
  exact (app_sep_inj "="%char k1 v1 k2 v2 H1 H2 H).
Qed.

Lemma metadata_arg_injective_witness :
  contains "="%char "title" = false /\
  metadata_arg "title" "x" = metadata_arg "title" "x" /\
  "x" = "x".
Proof.
  split; [reflexivity |]. split; [reflexivity |].
  apply (proj1 metadata_arg_injective "title" "x" "title" "x" eq_refl eq_refl eq_refl).
Defined.

(** * Further properties of runs *)

(** X9: when both children end with code 0 the script prints its two
    success lines and nothing else, runs exactly nbconvert and then
    pandoc, and ends with exit status 0. *)
Theorem both_succeed :
  forall World spawn str nb md (w w1 w2 : World),
    spawn (nbconvert_command_of nb) w = (Finished 0, w1) ->
    spawn (pandoc_command_of nb md) w1 = (Finished 0, w2) ->
    fst (run (script World spawn str nb md) w) = Val tt /\
    exit_status (fst (run (script World spawn str nb md) w)) = 0 /\
    world (snd (run (script World spawn str nb md) w)) = w2 /\
    printed (trace (snd (run (script World spawn str nb md) w))) =
      [ "Converted notebook to Markdown: " ++ markdown_path_of nb;
        "Successfully converted Markdown to PDF: " ++ pdf_output_path_of nb ] /\
    invocations (trace (snd (run (script World spawn str nb md) w))) =
      [ nbconvert_command_of nb; pandoc_command_of nb md ].
Proof.
  intros World spawn str nb md w w1 w2 H1 H2.
  rewrite (run_both_succeed World spawn str nb md w w1 w2 H1 H2).
  repeat split.
Qed.

Lemma both_succeed_witness :
  always 0 nbconvert_command tt = (Finished 0, tt) /\
  always 0 pandoc_command tt = (Finished 0, tt) /\
  exit_status (fst (run (script unit (always 0) no_str notebook_path metadata) tt)) = 0.
Proof.
  split; [reflexivity |]. split; [reflexivity |].
  apply (both_succeed unit (always 0) no_str notebook_path metadata tt tt tt
           eq_refl eq_refl).
Defined.

(** X10: the exit status is 0 or 1, and it is 0 exactly in the runs in
    which the pandoc child was started: whether pandoc then succeeded
    does not show in the exit status. *)
Theorem exit_status_zero_iff_pandoc_started :
  forall World spawn str nb md (w : World),
    (exit_status (fst (run (script World spawn str nb md) w)) = 0 \/
     exit_status (fst (run (script World spawn str nb md) w)) = 1) /\
    (exit_status (fst (run (script World spawn str nb md) w)) = 0 <->
     In (Start (pandoc_command_of nb md))
        (trace (snd (run (script World spawn str nb md) w)))).
Proof.
  intros World spawn str nb md w.
  pose proof (commands_differ nb md) as Hdiff.
  destruct (run_outcome World spawn str nb md w);
    cbn [fst snd trace exit_status];
    change (1 mod 256) with 1.
  - split; [now right |]. split; [discriminate |].
    intros [Hin | []]. discriminate Hin.
  - split; [now right |]. split; [discriminate |].
    intros [Hin | [Hin | [Hin | []]]]; try discriminate Hin.
    injection Hin as Hin. congruence.
  - split; [now right |]. split; [discriminate |].
    intros [Hin | [Hin | [Hin | [Hin | []]]]]; try discriminate Hin.
    injection Hin as Hin. congruence.
  - split; [now left |]. split; [| reflexivity].
    intros _. do 3 right. now left.
  - split; [now left |]. split; [| reflexivity].
    intros _. do 3 right. now left.
Qed.

Lemma exit_status_zero_iff_pandoc_started_witness :
  In (Start pandoc_command)
     (trace (snd (run (script (list child) scripted no_str notebook_path metadata)
                    [Finished 0; Finished 2]))) /\
  exit_status (fst (run (script (list child) scripted no_str notebook_path metadata)
                      [Finished 0; Finished 2])) = 0.
Proof.
  assert (Hin : In (Start pandoc_command)
     (trace (snd (run (script (list child) scripted no_str notebook_path metadata)
                    [Finished 0; Finished 2])))).
  { do 3 right. left. reflexivity. }
  split; [exact Hin |].
  apply (proj2 (exit_status_zero_iff_pandoc_started (list child) scripted no_str
                  notebook_path metadata [Finished 0; Finished 2])).
  exact Hin.
Defined.

(** X11: in every run each child that was started is reported by
    exactly one printed line, no child is still live when the script
    ends, and at most two commands are invoked. *)
Theorem each_child_reported_once :
  forall World spawn str nb md (w : World),
    List.length (printed (trace (snd (run (script World spawn str nb md) w)))) =
      started (trace (snd (run (script World spawn str nb md) w))) /\
    live (trace (snd (run (script World spawn str nb md) w))) = 0 /\
    (List.length (invocations (trace (snd (run (script World spawn str nb md) w))))
     <= 2)%nat.
Proof.
  intros World spawn str nb md w.
  destruct (run_outcome World spawn str nb md w);
    cbn [snd trace printed started live invocations List.length];
    repeat split; lia.
Qed.

(** X12: the PDF success line is printed only in the run in which both
    children ended with code 0. *)
Theorem pdf_success_line_truthful :
  forall World spawn str nb md (w : World),
    In ("Successfully converted Markdown to PDF: " ++ pdf_output_path_of nb)
       (printed (trace (snd (run (script World spawn str nb md) w)))) ->
    exists w2,
      run (script World spawn str nb md) w =
      (Val tt,
       mkState w2
         [ Start (nbconvert_command_of nb); Exit 0;
           Print ("Converted notebook to Markdown: " ++ markdown_path_of nb);
           Start (pandoc_command_of nb md); Exit 0;
           Print ("Successfully converted Markdown to PDF: " ++
                  pdf_output_path_of nb) ]).
Proof.
  intros World spawn str nb md w.
  destruct (run_outcome World spawn str nb md w) as
    [what w1 | rc w1 Hrc | what w2 | rc w2 Hrc | w2];
    cbn [snd trace printed]; intros Hin.
  - destruct Hin.
  - destruct Hin as [Hin | []]. cbn [append] in Hin. discriminate Hin.
  - destruct Hin as [Hin | []]. cbn [append] in Hin. discriminate Hin.
  - destruct Hin as [Hin | [Hin | []]]; cbn [append] in Hin; discriminate Hin.
  - now exists w2.
Qed.

Lemma pdf_success_line_truthful_witness :
  In ("Successfully converted Markdown to PDF: " ++ pdf_output_path)
     (printed (trace (snd (run (script unit (always 0) no_str notebook_path metadata)
                             tt)))) /\
  exists w2,
    run (script unit (always 0) no_str notebook_path metadata) tt =
    (Val tt,
     mkState w2
       [ Start nbconvert_command; Exit 0;
         Print ("Converted notebook to Markdown: " ++ markdown_path);
         Start pandoc_command; Exit 0;
         Print ("Successfully converted Markdown to PDF: " ++ pdf_output_path) ]).
Proof.
  assert (Hin : In ("Successfully converted Markdown to PDF: " ++ pdf_output_path)
     (printed (trace (snd (run (script unit (always 0) no_str notebook_path metadata)
                             tt))))).
  { right. left. reflexivity. }
  split; [exact Hin |].
  apply (pdf_success_line_truthful unit (always 0) no_str notebook_path metadata tt Hin).
Defined.
